(** * CheckoutForm: validation schema, input formatters and submit gate

    Shallow embedding of [src/components/blocks/CheckoutForm/index.tsx].

    The component owns four string-or-null fields, validates them with a
    Joi object schema, reformats two of them on every keystroke and hands
    the validator's data to [onSuccess] on submit.  The functions it
    imports from [creditcardutils], the Joi engine and the two hooks
    ([useValidator], [useModels]) are not part of the file; they appear
    below either as an interface ([CreditCardUtils], [EmailGrammar]) or as
    definitions marked "Modelled from the spec". *)

From Stdlib Require Import String Ascii List Bool Arith ZArith Lia.
Import ListNotations.

Open Scope string_scope.
Open Scope list_scope.
Open Scope nat_scope.

(* ================================================================== *)
(** ** JavaScript strings *)
(* ================================================================== *)

Module Js.

(** A string is its sequence of code units; the inputs of interest are
    ASCII, where code units and characters coincide. *)
Definition chars (s : string) : list ascii := list_ascii_of_string s.
Definition of_chars (l : list ascii) : string := string_of_list_ascii l.

(** [\d] of a JavaScript regular expression. *)
Definition is_digit (c : ascii) : bool :=
  let n := nat_of_ascii c in (48 <=? n) && (n <=? 57).

Definition digit_value (c : ascii) : nat := nat_of_ascii c - 48.

Definition space : ascii := " "%char.

(** [s.replace(/\D/g, '')] on the code units. *)
Definition digits_of (l : list ascii) : list ascii := filter is_digit l.

(** Truthiness of a string value: only the empty string is falsy. *)
Definition truthy (s : string) : bool :=
  match s with EmptyString => false | String _ _ => true end.

(** Truthiness of a [string | null] value. *)
Definition truthy_opt (v : option string) : bool :=
  match v with None => false | Some s => truthy s end.

(** [x === "literal"] for a [string | null] value [x]. *)
Definition strict_eq (x : option string) (literal : string) : bool :=
  match x with
  | Some t => String.eqb t literal
  | None => false
  end.

(** [x === y] for two [string | null] values. *)
Definition same (x y : option string) : bool :=
  match x, y with
  | None, None => true
  | Some a, Some b => String.eqb a b
  | _, _ => false
  end.

(** Decimal value of a run of digit characters. *)
Definition decimal (l : list ascii) : nat :=
  fold_left (fun acc c => 10 * acc + digit_value c) l 0.


End Js.

(* ================================================================== *)
(** ** The imported card utilities *)
(* ================================================================== *)

(** The seven functions imported from [creditcardutils] (lines 8-16), as
    the component uses them.  [parseCardType] is called both on a schema
    value (a string) and on [models.card_number] (a string or null) and
    its result is compared with the literals ["visa"] and ["mastercard"].
    [parseCardExpiry] yields the [month] and [year] that are passed on to
    [validateCardExpiry]. *)
Record Expiry := { month : Z; year : Z }.

Class CreditCardUtils := {
  formatCardExpiry : string -> string;
  formatCardNumber : string -> string;
  parseCardExpiry : string -> Expiry;
  parseCardType : option string -> option string;
  validateCardCVC : string -> bool;
  validateCardExpiry : Z -> Z -> bool;
  validateCardNumber : string -> bool;
  (** Brand detection answers "unknown" on null and on the empty string
      (spec 4.2). *)
  parseCardType_falsy :
    forall v, Js.truthy_opt v = false -> parseCardType v = None
}.

(** The address grammar behind [Joi.string().email({ tlds: { allow: false } })]. *)
Class EmailGrammar := { isEmail : string -> bool }.

(** *** A model of the utilities, from the specification *)

Module CardUtilsModel.

Import Js.

(** The card brands of the data model (spec 3). *)
Inductive CardBrand := Visa | Mastercard | Unknown.

(** Modelled from the spec: the grouping step of [formatCardNumber]
    ([creditcardutils] is not in the source tree).  [k] is the number of
    digits the current group still takes; a delimiter is emitted before
    the digit that opens the next group. *)
Fixpoint group (k : nat) (ds : list ascii) : list ascii :=
  match ds with
  | [] => []
  | d :: rest =>
      match k with
      | O => space :: d :: group 3 rest
      | S k' => d :: group k' rest
      end
  end.

(** Modelled from the spec: [formatCardNumber] of [creditcardutils]
    (4.1): strip the non-digits, cap at 16 digits, delimit every 4. *)
Definition formatCardNumber (raw : string) : string :=
  of_chars (group 4 (firstn 16 (digits_of (chars raw)))).

(** Modelled from the spec: [formatCardExpiry] of [creditcardutils]
    (4.1): strip the non-digits, cap at 4 digits, put [" / "] after the
    second digit once a third one exists. *)
Definition formatCardExpiry (raw : string) : string :=
  let ds := firstn 4 (digits_of (chars raw)) in
  match ds with
  | a :: b :: (_ :: _) as rest =>
      of_chars (a :: b :: chars " / " ++ rest)
  | _ => of_chars ds
  end.

(** The first [n] code units, when they exist and are all digits. *)
Definition leading (n : nat) (cs : list ascii) : option nat :=
  let p := firstn n cs in
  if (length p =? n) && forallb is_digit p then Some (decimal p) else None.

Definition leading_within (n lo hi : nat) (cs : list ascii) : bool :=
  match leading n cs with
  | Some v => (lo <=? v) && (v <=? hi)
  | None => false
  end.

(** Modelled from the spec: [parseCardType] of [creditcardutils] (4.2):
    Visa on a leading 4, Mastercard on a leading 51-55 or 2221-2720,
    Unknown otherwise, null and the empty string included. *)
Definition parseCardType (number : option string) : CardBrand :=
  match number with
  | None => Unknown
  | Some s =>
      let cs := chars s in
      if leading_within 1 4 4 cs then Visa
      else if leading_within 2 51 55 cs || leading_within 4 2221 2720 cs
           then Mastercard
           else Unknown
  end.

(** The library's name of a brand, as the component compares it. *)
Definition brand_name (b : CardBrand) : option string :=
  match b with
  | Visa => Some "visa"
  | Mastercard => Some "mastercard"
  | Unknown => None
  end.

Definition parseCardType_js (number : option string) : option string :=
  brand_name (parseCardType number).

(** One step of the Luhn sum, from the rightmost digit: every second
    digit is doubled and reduced by 9 when it exceeds 9. *)
Fixpoint luhn_sum (double : bool) (ds : list nat) : nat :=
  match ds with
  | [] => 0
  | d :: rest =>
      (if double then (if 9 <? 2 * d then 2 * d - 9 else 2 * d) else d)
      + luhn_sum (negb double) rest
  end.

Definition luhn (ds : list ascii) : bool :=
  luhn_sum false (rev (map digit_value ds)) mod 10 =? 0.

Definition is_space (c : ascii) : bool := Ascii.eqb c space.

(** Modelled from the spec: [validateCardNumber] of [creditcardutils]
    (3, 4.3): the Luhn checksum, taken over the digits of a displayed
    number (the delimiters the formatter inserts are skipped). *)
Definition validateCardNumber (num : string) : bool :=
  let cs := filter (fun c => negb (is_space c)) (chars num) in
  negb (length cs =? 0) && forallb is_digit cs && luhn cs.

(** Modelled from the spec: [validateCardCVC] of [creditcardutils]
    (4.3): a numeric code of three or four digits. *)
Definition validateCardCVC (cvc : string) : bool :=
  let cs := chars cvc in
  forallb is_digit cs && (3 <=? length cs) && (length cs <=? 4).

(** Modelled from the spec: [parseCardExpiry] of [creditcardutils]
    (4.3): the digits before and after the slash; a two-digit year is
    taken in the current century. *)
Fixpoint split_slash (cs : list ascii) : list ascii * list ascii :=
  match cs with
  | [] => ([], [])
  | c :: rest =>
      if Ascii.eqb c "/"%char then ([], rest)
      else let (a, b) := split_slash rest in (c :: a, b)
  end.

Definition parseCardExpiry (value : string) : Expiry :=
  let (m, y) := split_slash (chars value) in
  let yd := digits_of y in
  let yv := Z.of_nat (decimal yd) in
  {| month := Z.of_nat (decimal (digits_of m));
     year := if length yd <=? 2 then (2000 + yv)%Z else yv |}.

(** Modelled from the spec: [validateCardExpiry] of [creditcardutils]
    (4.3) at the month [(now_month, now_year)]: a month of the calendar
    that has not elapsed. *)
Definition validateCardExpiry (now_month now_year : Z) (m y : Z) : bool :=
  ((1 <=? m) && (m <=? 12) &&
   ((now_year <? y) || ((now_year =? y) && (now_month <=? m))))%Z.

(** Modelled from the spec: the "standard email grammar" of Joi's
    [email] rule (4.3), reduced to one [@] between two non-empty parts
    without blanks. *)
Definition isEmail (s : string) : bool :=
  let cs := chars s in
  let is_at c := Ascii.eqb c "@"%char in
  (length (filter is_at cs) =? 1)
  && negb (existsb is_space cs)
  && match cs with c :: _ => negb (is_at c) | [] => false end
  && match rev cs with c :: _ => negb (is_at c) | [] => false end.

End CardUtilsModel.

(** The model as an implementation of the interface. *)
Definition model_utils (now_month now_year : Z) : CreditCardUtils := {|
  formatCardExpiry := CardUtilsModel.formatCardExpiry;
  formatCardNumber := CardUtilsModel.formatCardNumber;
  parseCardExpiry := CardUtilsModel.parseCardExpiry;
  parseCardType := CardUtilsModel.parseCardType_js;
  validateCardCVC := CardUtilsModel.validateCardCVC;
  validateCardExpiry := CardUtilsModel.validateCardExpiry now_month now_year;
  validateCardNumber := CardUtilsModel.validateCardNumber;
  parseCardType_falsy := fun v =>
    match v with
    | None => fun _ => eq_refl
    | Some EmptyString => fun _ => eq_refl
    | Some (String _ _) => fun H => False_ind _ (diff_true_false H)
    end
|}.

Definition model_email : EmailGrammar :=
  {| isEmail := CardUtilsModel.isEmail |}.

(* ================================================================== *)
(** ** The schema engine *)
(* ================================================================== *)

Module Joi.

Definition Code := string.

(** What a rule hands back: the value validation goes on with ([None]
    when a custom method returned nothing), or [helpers.error(code)]. *)
Inductive Outcome :=
| Value (v : option string)
| Error (code : Code).

Definition Rule := string -> Outcome.

(** Modelled from the spec: [.length(limit)] of [joi] (4.3, "exactly 3
    characters"), on the code units of the string; the code it fails
    with is the key of line 144. *)
Definition length (limit : nat) : Rule := fun value =>
  if String.length value =? limit then Value (Some value)
  else Error "string.length".

(** Modelled from the spec: [.email(...)] of [joi] (4.3), failing with
    the key of line 84. *)
Definition email {mail : EmailGrammar} : Rule := fun value =>
  if isEmail value then Value (Some value) else Error "string.email".

(** [.custom(method)]. *)
Definition custom (method : string -> Outcome) : Rule := method.

(** [Joi.string()] with its chained rules in order, the presence flag
    set by [.required()] and the table given to [.messages()]. *)
Record StringSchema := {
  rules : list Rule;
  required : bool;
  messages : list (Code * string)
}.

(** Modelled from the spec: the evaluation of a field's rules (4.3; the
    [joi] package is not in the source tree).  Rules run in the order
    checked and stop at the first failure. *)
Fixpoint run (rs : list Rule) (value : string) : option Code :=
  match rs with
  | [] => None
  | r :: rest =>
      match r value with
      | Error code => Some code
      | Value (Some value') => run rest value'
      | Value None => None
      end
  end.

(** Modelled from the spec: the message of a failure is the entry of
    the field's table for its code (4.3); a code without an entry, which
    the four tables of the component do not leave, stands for itself. *)
Definition message (s : StringSchema) (code : Code) : string :=
  match find (fun e => String.eqb (fst e) code) (messages s) with
  | Some e => snd e
  | None => code
  end.

(** Modelled from the spec: the error messages of one field (4.3).  A
    required field fails with the [any.required] message on null and
    with the [string.empty] message on the empty string; otherwise the
    first failing rule, if any, gives the single message. *)
Definition validate (s : StringSchema) (v : option string) : list string :=
  match v with
  | None => if required s then [message s "any.required"] else []
  | Some EmptyString => [message s "string.empty"]
  | Some value =>
      match run (rules s) value with
      | Some code => [message s code]
      | None => []
      end
  end.

End Joi.

(* ================================================================== *)
(** ** The component *)
(* ================================================================== *)

(** [TypeCheckoutFormDefaultValues] (lines 43-48). *)
Record FormValues := {
  email : option string;
  card_number : option string;
  card_expire : option string;
  cvv : option string
}.

(** The keys of [FormValues]. *)
Inductive Field := Email | CardNumber | CardExpire | Cvv.

Definition fields : list Field := [Email; CardNumber; CardExpire; Cvv].

Definition get (f : Field) (v : FormValues) : option string :=
  match f with
  | Email => email v
  | CardNumber => card_number v
  | CardExpire => card_expire v
  | Cvv => cvv v
  end.

Definition set (f : Field) (x : option string) (v : FormValues) : FormValues :=
  match f with
  | Email =>
      {| email := x; card_number := card_number v;
         card_expire := card_expire v; cvv := cvv v |}
  | CardNumber =>
      {| email := email v; card_number := x;
         card_expire := card_expire v; cvv := cvv v |}
  | CardExpire =>
      {| email := email v; card_number := card_number v;
         card_expire := x; cvv := cvv v |}
  | Cvv =>
      {| email := email v; card_number := card_number v;
         card_expire := card_expire v; cvv := x |}
  end.

(** Lines 58-63. *)
Definition defaultState : FormValues :=
  {| email := None; card_number := None; card_expire := None; cvv := None |}.

(** The props besides the callback (lines 52-56, defaults at 67-68). *)
Record Props := { loading : bool; submitText : string }.

Definition defaultProps : Props :=
  {| loading := false; submitText := "Submit" |}.

(** What a handler does to the outside: [e.preventDefault()] and
    [onSuccess(values)]. *)
Inductive Effect :=
| PreventDefault
| OnSuccess (values : FormValues).

(** The validator's state: [$data] and the messages the schema gives
    for the value of each field, shown or not.  [$errors] and
    [$auto_invalid] are two readings of these lists. *)
Record ValidatorState := {
  data : FormValues;
  source_errors : Field -> list string
}.

(** The value of the field has left the one of [initialData] (line 75). *)
Definition dirty (st : ValidatorState) (f : Field) : bool :=
  negb (Js.same (get f (data st)) (get f defaultState)).

(** Modelled from the spec: [$errors] of [useValidator] (3: a list of
    messages per field; the hook of [@packages/react-joi] is not in the
    source tree), as [getErrors] reads it at line 152.  The hook hands
    out the messages of a field only once its value has left the initial
    one, which the spec does not say: at first render every list is
    empty. *)
Definition errors (st : ValidatorState) (f : Field) : list string :=
  if dirty st f then source_errors st f else [].

(** Modelled from the spec: [$auto_invalid] of [useValidator] (4.3; the
    hook of [@packages/react-joi] is not in the source tree), as line 279
    reads it: the schema gives a message for the value of some field,
    shown or not. *)
Definition auto_invalid (st : ValidatorState) : bool :=
  existsb (fun f => negb (Nat.eqb (List.length (source_errors st f)) 0))
          fields.

(** The two stores of the component: [models] of [useModels] and [state]
    of [useValidator]. *)
Record Component := {
  models : FormValues;
  state : ValidatorState
}.

(** What reaches the component: a change of an input, a press on the
    submit button, a submit event of the form. *)
Inductive Event :=
| Change (f : Field) (value : string)
| Press
| SubmitEvent.

Section CheckoutForm.

Context {utils : CreditCardUtils} {mail : EmailGrammar}.

(** Lines 77-86. *)
Definition email_schema : Joi.StringSchema := {|
  Joi.rules := [Joi.email];
  Joi.required := true;
  Joi.messages :=
    [("string.empty", "Required");
     ("string.email", "Must be a valid email");
     ("any.required", "Required")]
|}.

(** Lines 88-95. *)
Definition card_number_checksum (value : string) : Joi.Outcome :=
  if Js.truthy value then
    if negb (validateCardNumber value) then Joi.Error "string.cardNumber"
    else Joi.Value (Some value)
  else Joi.Value (Some value).

(** Lines 96-106; nothing is returned for a falsy value. *)
Definition card_number_type (value : string) : Joi.Outcome :=
  if Js.truthy value then
    let cardType := parseCardType (Some value) in
    if negb (Js.strict_eq cardType "visa"
             || Js.strict_eq cardType "mastercard")
    then Joi.Error "string.cardType"
    else Joi.Value (Some value)
  else Joi.Value None.

(** Lines 87-113. *)
Definition card_number_schema : Joi.StringSchema := {|
  Joi.rules := [Joi.custom card_number_checksum; Joi.custom card_number_type];
  Joi.required := true;
  Joi.messages :=
    [("string.empty", "Required");
     ("string.cardNumber", "Must be a valid card");
     ("string.cardType", "Must be Visa / Master card type");
     ("any.required", "Required")]
|}.

(** Lines 115-123. *)
Definition card_expire_check (value : string) : Joi.Outcome :=
  if Js.truthy value then
    let e := parseCardExpiry value in
    if negb (validateCardExpiry (month e) (year e))
    then Joi.Error "string.cardExpire"
    else Joi.Value (Some value)
  else Joi.Value (Some value).

(** Lines 114-129. *)
Definition card_expire_schema : Joi.StringSchema := {|
  Joi.rules := [Joi.custom card_expire_check];
  Joi.required := true;
  Joi.messages :=
    [("string.empty", "Required");
     ("string.cardExpire", "Must be valid expiration date");
     ("any.required", "Required")]
|}.

(** Lines 133-140. *)
Definition cvv_check (value : string) : Joi.Outcome :=
  if Js.truthy value then
    if negb (validateCardCVC value) then Joi.Error "string.invalid"
    else Joi.Value (Some value)
  else Joi.Value (Some value).

(** Lines 130-146. *)
Definition cvv_schema : Joi.StringSchema := {|
  Joi.rules := [Joi.length 3; Joi.custom cvv_check];
  Joi.required := true;
  Joi.messages :=
    [("string.empty", "Required");
     ("string.invalid", "Must be valid CVV");
     ("string.length", "Maximum 3 digits");
     ("any.required", "Required")]
|}.

(** [Joi.object({ ... })], lines 76-147. *)
Definition schema (f : Field) : Joi.StringSchema :=
  match f with
  | Email => email_schema
  | CardNumber => card_number_schema
  | CardExpire => card_expire_schema
  | Cvv => cvv_schema
  end.

(** The messages of every field for the given values. *)
Definition validate (v : FormValues) (f : Field) : list string :=
  Joi.validate (schema f) (get f v).

(** Modelled from the spec: [setData] of [useValidator] (3, 4.3): the
    new data and, recomputed in the same step, the messages of all
    fields. *)
Definition setData (v : FormValues) : ValidatorState :=
  {| data := v; source_errors := validate v |}.


(** Modelled from the spec: [updateModel] of [useModels] (2; the hook
    of [@packages/react-use-models] is not in the source tree): one
    field of the model store is replaced. *)
Definition updateModel (f : Field) (value : string) (m : FormValues)
  : FormValues := set f (Some value) m.

(** The [onChange] of each input: the two formatters of lines 165-176
    for the card number and the expiry (lines 215, 250); the other two
    inputs (lines 193, 265) keep the binding of [register.input], which
    stores the value as typed (see [updateModel]). *)
Definition onChange (f : Field) (value : string) (m : FormValues)
  : FormValues :=
  match f with
  | CardNumber => updateModel CardNumber (formatCardNumber value) m
  | CardExpire => updateModel CardExpire (formatCardExpiry value) m
  | _ => updateModel f value m
  end.

(** Lines 159-163. *)
Definition onSubmit (c : Component) : list Effect :=
  [PreventDefault; OnSuccess (data (state c))].

(** Line 279. *)
Definition submit_disabled (p : Props) (c : Component) : bool :=
  auto_invalid (state c) || loading p.

(** Lines 220-235: which brand icon is lit. *)
Definition visa_active (c : Component) : bool :=
  Js.strict_eq (parseCardType (card_number (models c))) "visa".

Definition mastercard_active (c : Component) : bool :=
  Js.strict_eq (parseCardType (card_number (models c))) "mastercard".

(** The component as first rendered. *)
Definition init : Component :=
  {| models := defaultState; state := setData defaultState |}.

(** One event, handled to completion: a change updates the model and
    the effect of lines 179-181 copies it to the validator; a press on
    a disabled button does nothing and on an enabled one submits the
    form; a submit event runs [onSubmit]. *)
Definition step (p : Props) (c : Component) (e : Event)
  : Component * list Effect :=
  match e with
  | Change f value =>
      let m := onChange f value (models c) in
      ({| models := m; state := setData m |}, [])
  | Press =>
      if submit_disabled p c then (c, []) else (c, onSubmit c)
  | SubmitEvent => (c, onSubmit c)
  end.

(** The states the component goes through. *)
Inductive reachable (p : Props) : Component -> Prop :=
| reachable_init : reachable p init
| reachable_step c e : reachable p c -> reachable p (fst (step p c e)).

(** The component after a sequence of events since the first render. *)
Definition after (p : Props) (es : list Event) : Component :=
  fold_left (fun c e => fst (step p c e)) es init.

(** The callback calls among the effects of a handler. *)
Definition calls (l : list Effect) : list FormValues :=
  flat_map (fun e => match e with OnSuccess v => [v] | _ => [] end) l.

Definition non_null (v : FormValues) : Prop :=
  forall f, get f v <> None.

End CheckoutForm.

(* ================================================================== *)
(** ** Vocabulary of the statements *)
(* ================================================================== *)

(** The scenario of the specification (8): the model of the utilities
    read in January 2025, and a form filled in with well-formed values. *)
Definition scenario_utils : CreditCardUtils := model_utils 1 2025.

Definition scenario_input : list Event :=
  [Change Email "a@b.com"; Change CardNumber "4111111111111111";
   Change CardExpire "12/29"; Change Cvv "123"].

(** The number opens with the digit 4. *)
Definition leading_4 (s : string) : Prop :=
  exists rest, s = String "4"%char rest.

(** The number opens with two digits that read [v]. *)
Definition leading_two (s : string) (v : nat) : Prop :=
  exists a b rest,
    s = String a (String b rest) /\
    Js.is_digit a = true /\ Js.is_digit b = true /\
    v = 10 * Js.digit_value a + Js.digit_value b.

(** The number opens with four digits that read [v]. *)
Definition leading_four (s : string) (v : nat) : Prop :=
  exists a b c d rest,
    s = String a (String b (String c (String d rest))) /\
    Js.is_digit a = true /\ Js.is_digit b = true /\
    Js.is_digit c = true /\ Js.is_digit d = true /\
    v = 1000 * Js.digit_value a + 100 * Js.digit_value b
        + 10 * Js.digit_value c + Js.digit_value d.

(** The leading digits fall in 51-55 or in 2221-2720. *)
Definition mastercard_prefix (s : string) : Prop :=
  (exists v, leading_two s v /\ 51 <= v <= 55) \/
  (exists v, leading_four s v /\ 2221 <= v <= 2720).

(** Equality of field names. *)
Definition field_eqb (f g : Field) : bool :=
  match f, g with
  | Email, Email | CardNumber, CardNumber
  | CardExpire, CardExpire | Cvv, Cvv => true
  | _, _ => false
  end.

(** Some event of the list is a change of the input of [f]. *)
Definition touched (f : Field) (es : list Event) : bool :=
  existsb (fun e => match e with
                    | Change g _ => field_eqb f g
                    | _ => false
                    end) es.

(** The events come from the inputs and the submit button only: no
    submit event reaches the form by another way. *)
Definition through_button (es : list Event) : bool :=
  forallb (fun e => match e with SubmitEvent => false | _ => true end) es.

(** The component and everything its handlers did, after a sequence of
    events handled one after the other. *)
Fixpoint run_events {utils : CreditCardUtils} {mail : EmailGrammar}
    (p : Props) (c : Component) (es : list Event)
  : Component * list Effect :=
  match es with
  | [] => (c, [])
  | e :: rest =>
      let (c1, out1) := step p c e in
      let (c2, out2) := run_events p c1 rest in
      (c2, out1 ++ out2)
  end.

(** The texts of a field's [.messages()] table. *)
Definition texts {utils : CreditCardUtils} {mail : EmailGrammar}
    (f : Field) : list string :=
  map snd (Joi.messages (schema f)).

(* ================================================================== *)
(** ** Digits and delimiters *)
(* ================================================================== *)

Module FormatFacts.

Import Js CardUtilsModel.

Lemma chars_of_chars (l : list ascii) : chars (of_chars l) = l.
Proof. apply list_ascii_of_string_of_list_ascii. Qed.

Lemma of_chars_chars (s : string) : of_chars (chars s) = s.
Proof. apply string_of_list_ascii_of_string. Qed.

Lemma space_not_digit : is_digit space = false.
Proof. reflexivity. Qed.

Lemma digit_not_space (c : ascii) : is_digit c = true -> c <> space.
Proof. intros H E. rewrite E, space_not_digit in H. discriminate. Qed.

Lemma digits_of_all (l : list ascii) : forallb is_digit (digits_of l) = true.
Proof.
  apply forallb_forall. intros c Hc.
  apply filter_In in Hc. tauto.
Qed.

Lemma all_firstn {A} (p : A -> bool) (n : nat) (l : list A) :
  forallb p l = true -> forallb p (firstn n l) = true.
Proof.
  revert n. induction l as [|x l IH]; intros [|n]; simpl; auto.
  intros H. apply andb_prop in H as [Hx Hl].
  rewrite Hx. simpl. apply IH, Hl.
Qed.

Lemma digits_of_id (l : list ascii) :
  forallb is_digit l = true -> digits_of l = l.
Proof.
  induction l as [|c l IH]; simpl; [reflexivity|].
  intros H. apply andb_prop in H as [Hc Hl].
  rewrite Hc, IH; auto.
Qed.

(** Stripping the delimiters of a grouped run of digits gives the run
    back. *)
Lemma digits_of_group (ds : list ascii) :
  forallb is_digit ds = true -> forall k, digits_of (group k ds) = ds.
Proof.
  induction ds as [|d ds IH]; simpl; [reflexivity|].
  intros H. apply andb_prop in H as [Hd Hds].
  intros [|k]; simpl; rewrite Hd, (IH Hds); reflexivity.
Qed.

Lemma group_In (ds : list ascii) :
  forall k c, In c (group k ds) -> In c ds \/ c = space.
Proof.
  induction ds as [|d ds IH]; simpl; [tauto|].
  intros [|k] c; simpl; intros H.
  - destruct H as [H|[H|H]]; auto. destruct (IH _ _ H); auto.
  - destruct H as [H|H]; auto. destruct (IH _ _ H); auto.
Qed.

(** Where the delimiters sit: with [k] digits still due in the current
    group, position [i] holds a delimiter exactly when [i + (4 - k)] is
    4 modulo 5. *)
Lemma group_nth (ds : list ascii) :
  forallb is_digit ds = true ->
  forall k i, k <= 4 -> i < List.length (group k ds) ->
    (nth i (group k ds) space = space <-> (i + (4 - k)) mod 5 = 4).
Proof.
  induction ds as [|d ds IH]; [simpl; intros; lia|].
  intros H. simpl in H. apply andb_prop in H as [Hd Hds].
  pose proof (digit_not_space d Hd) as Hns.
  intros [|k] i Hk Hi.
  - destruct i as [|[|i]].
    + split; intros; reflexivity.
    + split; [intros E; contradiction | intros E; discriminate E].
    + cbn [nth group]. simpl in Hi. rewrite (IH Hds 3 i) by lia.
      assert (E : (S (S i) + (4 - 0)) mod 5 = (i + (4 - 3)) mod 5).
      { replace (S (S i) + (4 - 0)) with (i + (4 - 3) + 1 * 5) by lia.
        apply Nat.Div0.mod_add. }
      rewrite E. tauto.
  - destruct i as [|i].
    + split; [intros E; contradiction|].
      intros E. exfalso.
      rewrite Nat.mod_small in E by lia. lia.
    + cbn [nth group]. simpl in Hi. rewrite (IH Hds k i) by lia.
      replace (S i + (4 - S k)) with (i + (4 - k)) by lia. tauto.
Qed.

(** A grouped run never ends in a delimiter. *)
Lemma group_last (ds : list ascii) :
  forallb is_digit ds = true ->
  forall k z, z <> space -> last (group k ds) z <> space.
Proof.
  induction ds as [|d ds IH]; simpl; [auto|].
  intros H. apply andb_prop in H as [Hd Hds].
  pose proof (digit_not_space d Hd) as Hns.
  intros [|k] z Hz.
  - change (last (space :: d :: group 3 ds) z)
      with (last (d :: group 3 ds) z).
    destruct (group 3 ds) eqn:E; [exact Hns|].
    rewrite <- E.
    change (last (d :: group 3 ds) z) with
      (match group 3 ds with [] => d | _ :: _ => last (group 3 ds) z end).
    rewrite E. rewrite <- E. apply IH; auto.
  - destruct (group k ds) eqn:E; [exact Hns|].
    change (last (d :: a :: l) z) with (last (a :: l) z).
    rewrite <- E. apply IH; auto.
Qed.

Lemma capped_digits_all (n : nat) (l : list ascii) :
  forallb is_digit (firstn n (digits_of l)) = true.
Proof. apply all_firstn, digits_of_all. Qed.

End FormatFacts.

(* ================================================================== *)
(** ** Brand prefixes *)
(* ================================================================== *)

Module BrandFacts.

Import Js CardUtilsModel.

Lemma digit_code (c : ascii) :
  is_digit c = true ->
  nat_of_ascii c = 48 + digit_value c /\ digit_value c <= 9.
Proof.
  unfold is_digit, digit_value. intros H.
  apply andb_prop in H as [H1 H2].
  apply Nat.leb_le in H1, H2. lia.
Qed.

Lemma digit_4 (c : ascii) :
  is_digit c = true -> digit_value c = 4 -> c = "4"%char.
Proof.
  intros H E. destruct (digit_code c H) as [N _].
  rewrite E in N. rewrite <- (ascii_nat_embedding c), N. reflexivity.
Qed.

Lemma leading_1 (s : string) (lo hi : nat) :
  leading_within 1 lo hi (chars s) = true <->
  exists a rest, s = String a rest /\ is_digit a = true /\
                 lo <= digit_value a <= hi.
Proof.
  destruct s as [|a rest].
  - split; [discriminate|]. intros (? & ? & E & _). discriminate E.
  - unfold leading_within, leading. cbn [chars list_ascii_of_string firstn
      List.length forallb Nat.eqb andb].
    destruct (is_digit a) eqn:Ha; cbn [andb].
    + unfold decimal. cbn [fold_left].
      rewrite andb_true_iff, !Nat.leb_le. split.
      * intros B. exists a, rest. repeat split; auto; lia.
      * intros (a' & r' & E & _ & B). injection E as <- _. lia.
    + split; [discriminate|].
      intros (a' & r' & E & D & _). injection E as <- _. congruence.
Qed.

Lemma leading_2 (s : string) (lo hi : nat) :
  leading_within 2 lo hi (chars s) = true <->
  exists v, leading_two s v /\ lo <= v <= hi.
Proof.
  destruct s as [|a [|b rest]].
  - split; [discriminate|].
    intros (v & (? & ? & ? & E & _) & _). discriminate E.
  - split; [discriminate|].
    intros (v & (? & ? & ? & E & _) & _). discriminate E.
  - unfold leading_within, leading. cbn [chars list_ascii_of_string firstn
      List.length forallb Nat.eqb andb].
    destruct (is_digit a) eqn:Ha, (is_digit b) eqn:Hb; cbn [andb];
      try (split; [discriminate|];
           intros (v & (a' & b' & r' & E & Da & Db & _) & _);
           injection E as <- <- _; congruence).
    unfold decimal. cbn [fold_left].
    rewrite andb_true_iff, !Nat.leb_le. split.
    + intros B. eexists. split; [exists a, b, rest; repeat split; auto|].
      lia.
    + intros (v & (a' & b' & r' & E & _ & _ & ->) & B).
      injection E as <- <- _. lia.
Qed.

Lemma leading_4_digits (s : string) (lo hi : nat) :
  leading_within 4 lo hi (chars s) = true <->
  exists v, leading_four s v /\ lo <= v <= hi.
Proof.
  destruct s as [|a [|b [|c [|d rest]]]];
    try (split; [discriminate|];
         intros (v & (? & ? & ? & ? & ? & E & _) & _); discriminate E).
  unfold leading_within, leading. cbn [chars list_ascii_of_string firstn
    List.length forallb Nat.eqb andb].
  destruct (is_digit a) eqn:Ha, (is_digit b) eqn:Hb,
           (is_digit c) eqn:Hc, (is_digit d) eqn:Hd; cbn [andb];
    try (split; [discriminate|];
         intros (v & (a' & b' & c' & d' & r' & E & Da & Db & Dc & Dd & _) & _);
         injection E as <- <- <- <- _; congruence).
  unfold decimal. cbn [fold_left].
  rewrite andb_true_iff, !Nat.leb_le. split.
  - intros B. eexists.
    split; [exists a, b, c, d, rest; repeat split; auto|]. lia.
  - intros (v & (a' & b' & c' & d' & r' & E & _ & _ & _ & _ & ->) & B).
    injection E as <- <- <- <- _. lia.
Qed.

Lemma visa_test (s : string) :
  leading_within 1 4 4 (chars s) = true <-> leading_4 s.
Proof.
  rewrite leading_1. unfold leading_4. split.
  - intros (a & rest & -> & D & B). exists rest.
    rewrite (digit_4 a D); [reflexivity | lia].
  - intros (rest & ->). exists "4"%char, rest.
    repeat split; cbn; lia.
Qed.

Lemma mastercard_test (s : string) :
  leading_within 2 51 55 (chars s) || leading_within 4 2221 2720 (chars s)
    = true <-> mastercard_prefix s.
Proof.
  rewrite orb_true_iff, leading_2, leading_4_digits. reflexivity.
Qed.

(** No number opens with a 4 and with a Mastercard range at once. *)
Lemma prefixes_apart (s : string) : leading_4 s -> ~ mastercard_prefix s.
Proof.
  intros (rest & ->) [(v & (a & b & r & E & Da & Db & ->) & B)
                     |(v & (a & b & c & d & r & E & Da & Db & Dc & Dd & ->) & B)].
  - injection E as <- _.
    destruct (digit_code b Db) as [_ Lb]. cbn in B. lia.
  - injection E as <- _.
    destruct (digit_code b Db) as [_ Lb], (digit_code c Dc) as [_ Lc],
             (digit_code d Dd) as [_ Ld].
    cbn in B. lia.
Qed.

End BrandFacts.

(* ================================================================== *)
(** ** The formatter and the brand detection *)
(* ================================================================== *)

(** C7. [formatCardNumber] keeps the digits of its input and nothing
    else of it, at most the first 16 of them; its output consists of
    digits and spaces, with a space exactly at the positions that follow
    a group of four digits (4, 9, 14, ...) and never at the end; and
    [formatCardNumber("4111111111111111")] is ["4111 1111 1111 1111"]. *)
Theorem formatCardNumber_groups_of_four :
  (forall raw : string,
     let out := Js.chars (CardUtilsModel.formatCardNumber raw) in
     Js.digits_of out = firstn 16 (Js.digits_of (Js.chars raw)) /\
     (forall c, In c out -> Js.is_digit c = true \/ c = Js.space) /\
     (forall i, i < List.length out ->
        (nth i out Js.space = Js.space <-> i mod 5 = 4)) /\
     last out "0"%char <> Js.space) /\
  CardUtilsModel.formatCardNumber "4111111111111111" = "4111 1111 1111 1111".
Proof.
  split; [|reflexivity].
  intros raw out. subst out. unfold CardUtilsModel.formatCardNumber.
  rewrite FormatFacts.chars_of_chars.
  pose proof (FormatFacts.capped_digits_all 16 (Js.chars raw)) as Hall.
  repeat split.
  - apply FormatFacts.digits_of_group, Hall.
  - intros c Hc. apply FormatFacts.group_In in Hc as [Hc|Hc]; auto.
    left. rewrite forallb_forall in Hall. apply Hall, Hc.
  - intros E. apply (FormatFacts.group_nth _ Hall 4 i) in E; auto.
    now rewrite Nat.sub_diag, Nat.add_0_r in E.
  - intros E. apply (FormatFacts.group_nth _ Hall 4 i); auto.
    now rewrite Nat.sub_diag, Nat.add_0_r.
  - apply FormatFacts.group_last; [exact Hall | discriminate].
Qed.

(** C8. Formatting a formatted card number changes nothing:
    [formatCardNumber (formatCardNumber x) = formatCardNumber x]. *)
Theorem formatCardNumber_idempotent :
  forall x : string,
    CardUtilsModel.formatCardNumber (CardUtilsModel.formatCardNumber x)
    = CardUtilsModel.formatCardNumber x.
Proof.
  intros x. unfold CardUtilsModel.formatCardNumber at 1 3.
  f_equal. f_equal.
  unfold CardUtilsModel.formatCardNumber.
  rewrite FormatFacts.chars_of_chars.
  rewrite FormatFacts.digits_of_group
    by apply FormatFacts.capped_digits_all.
  rewrite firstn_firstn. reflexivity.
Qed.

(** C9. [parseCardType] answers Visa exactly on a leading digit 4,
    Mastercard exactly on leading digits within 51-55 or 2221-2720, and
    Unknown on everything else, the empty string and null included; so
    ["4111111111111111"] is Visa and ["5500000000000004"] Mastercard. *)
Theorem parseCardType_prefix_rules :
  (forall s, CardUtilsModel.parseCardType (Some s) = CardUtilsModel.Visa
             <-> leading_4 s) /\
  (forall s, CardUtilsModel.parseCardType (Some s) = CardUtilsModel.Mastercard
             <-> mastercard_prefix s) /\
  (forall s, CardUtilsModel.parseCardType (Some s) = CardUtilsModel.Unknown
             <-> ~ leading_4 s /\ ~ mastercard_prefix s) /\
  CardUtilsModel.parseCardType None = CardUtilsModel.Unknown /\
  CardUtilsModel.parseCardType (Some "") = CardUtilsModel.Unknown /\
  CardUtilsModel.parseCardType (Some "4111111111111111")
    = CardUtilsModel.Visa /\
  CardUtilsModel.parseCardType (Some "5500000000000004")
    = CardUtilsModel.Mastercard.
Proof.
  assert (cases : forall s,
    (leading_4 s /\ CardUtilsModel.parseCardType (Some s) = CardUtilsModel.Visa)
    \/ (~ leading_4 s /\ mastercard_prefix s /\
        CardUtilsModel.parseCardType (Some s) = CardUtilsModel.Mastercard)
    \/ (~ leading_4 s /\ ~ mastercard_prefix s /\
        CardUtilsModel.parseCardType (Some s) = CardUtilsModel.Unknown)).
  { intros s. unfold CardUtilsModel.parseCardType.
    pose proof (BrandFacts.visa_test s) as V.
    pose proof (BrandFacts.mastercard_test s) as M.
    cbv zeta.
    destruct (CardUtilsModel.leading_within 1 4 4 (Js.chars s)).
    - left. split; [apply V|]; reflexivity.
    - right.
      assert (N4 : ~ leading_4 s) by (intros H; apply V in H; discriminate).
      destruct (CardUtilsModel.leading_within 2 51 55 (Js.chars s)
                || CardUtilsModel.leading_within 4 2221 2720 (Js.chars s)).
      + left. repeat split; auto. apply M. reflexivity.
      + right. repeat split; auto. intros H. apply M in H. discriminate. }
  repeat split; try reflexivity; intros;
    pose proof (BrandFacts.prefixes_apart s) as apart;
    destruct (cases s) as [[? ?]|[(? & ? & ?)|(? & ? & ?)]];
    try tauto; congruence.
Qed.

(* ================================================================== *)
(** ** The schema, field by field *)
(* ================================================================== *)

Section SchemaFacts.

Context {utils : CreditCardUtils} {mail : EmailGrammar}.

Lemma strict_eq_true (x : option string) (l : string) :
  Js.strict_eq x l = true <-> x = Some l.
Proof.
  destruct x as [t|]; simpl.
  - rewrite String.eqb_eq. split; congruence.
  - split; discriminate.
Qed.


(** A required field never validates on null. *)
Lemma required_null (f : Field) (v : FormValues) :
  get f v = None -> validate v f <> [].
Proof.
  unfold validate. intros ->. destruct f; discriminate.
Qed.

(** The card number rules on a non-empty value. *)
Lemma card_number_messages (v : FormValues) (n : string) :
  card_number v = Some n -> n <> "" ->
  validate v CardNumber =
    if negb (validateCardNumber n) then ["Must be a valid card"]
    else if Js.strict_eq (parseCardType (Some n)) "visa"
            || Js.strict_eq (parseCardType (Some n)) "mastercard"
         then []
         else ["Must be Visa / Master card type"].
Proof.
  intros E Hn. unfold validate. cbn [schema get]. rewrite E.
  destruct n as [|a r]; [congruence|].
  cbv beta iota zeta delta
    [Joi.validate Joi.rules card_number_schema Joi.run Joi.custom
     card_number_checksum card_number_type Js.truthy].
  destruct (validateCardNumber (String a r)); cbn [negb]; [|reflexivity].
  destruct (Js.strict_eq _ "visa" || Js.strict_eq _ "mastercard");
    reflexivity.
Qed.

(** The security code rules on a non-empty value. *)
Lemma cvv_messages (v : FormValues) (s : string) :
  cvv v = Some s -> s <> "" ->
  validate v Cvv =
    if String.length s =? 3
    then if negb (validateCardCVC s) then ["Must be valid CVV"] else []
    else ["Maximum 3 digits"].
Proof.
  intros E Hs. unfold validate. cbn [schema get]. rewrite E.
  destruct s as [|a r]; [congruence|].
  cbv beta iota zeta delta
    [Joi.validate Joi.rules cvv_schema Joi.run Joi.custom Joi.length
     cvv_check Js.truthy].
  destruct (String.length (String a r) =? 3); [|reflexivity].
  destruct (validateCardCVC (String a r)); reflexivity.
Qed.

(** The aggregate flag against the message lists. *)
Lemma auto_invalid_true (st : ValidatorState) :
  auto_invalid st = true <-> exists f, source_errors st f <> [].
Proof.
  unfold auto_invalid. rewrite existsb_exists. split.
  - intros (f & _ & H). exists f. intros E. rewrite E in H. discriminate.
  - intros (f & H). exists f. split; [destruct f; simpl; tauto|].
    destruct (source_errors st f); [congruence | reflexivity].
Qed.

Lemma auto_invalid_false (st : ValidatorState) :
  auto_invalid st = false <-> forall f, source_errors st f = [].
Proof.
  split.
  - intros H f. destruct (source_errors st f) eqn:E; [reflexivity|].
    assert (T : auto_invalid st = true).
    { apply auto_invalid_true. exists f. rewrite E. discriminate. }
    congruence.
  - intros H. destruct (auto_invalid st) eqn:E; [|reflexivity].
    apply auto_invalid_true in E as (f & N). elim N. apply H.
Qed.

(** The validator follows the model store: in every state the component
    reaches, [state.$data] is [models] and the lists behind the flag are
    the result of the schema on it. *)
Lemma reachable_sync (p : Props) (c : Component) :
  reachable p c ->
  data (state c) = models c /\
  forall f, source_errors (state c) f = validate (models c) f.
Proof.
  induction 1 as [|c e R IH].
  - split; reflexivity.
  - destruct e as [f value| |]; simpl.
    + split; reflexivity.
    + destruct (submit_disabled p c); exact IH.
    + exact IH.
Qed.

(** The messages of a field that holds an entered value are handed
    out; those of a field still null are not. *)
Lemma errors_entered (st : ValidatorState) (f : Field) (s : string) :
  get f (data st) = Some s -> errors st f = source_errors st f.
Proof.
  intros E. unfold errors, dirty. rewrite E. destruct f; reflexivity.
Qed.


Lemma reachable_from (p : Props) (es : list Event) :
  forall c, reachable p c ->
    reachable p (fold_left (fun c e => fst (step p c e)) es c).
Proof.
  induction es as [|e es IH]; simpl; intros c R; [exact R|].
  apply IH. apply reachable_step, R.
Qed.

Lemma reachable_after (p : Props) (es : list Event) :
  reachable p (after p es).
Proof. apply reachable_from, reachable_init. Qed.

End SchemaFacts.

(* ================================================================== *)
(** ** The card number field *)
(* ================================================================== *)

(** C1. Whatever the values of the other fields, a card number that the
    checksum of [validateCardNumber] accepts and that [parseCardType]
    reports as ["visa"] or ["mastercard"] leaves the message list of
    [card_number] empty. *)
Theorem card_number_accepted :
  forall (utils : CreditCardUtils) (mail : EmailGrammar)
         (v : FormValues) (n : string),
    card_number v = Some n ->
    validateCardNumber n = true ->
    parseCardType (Some n) = Some "visa" \/
    parseCardType (Some n) = Some "mastercard" ->
    validate v CardNumber = [].
Proof.
  intros utils mail v n E Hsum Hbrand.
  assert (Hn : n <> "").
  { intros ->.
    rewrite (parseCardType_falsy (Some "") eq_refl) in Hbrand.
    destruct Hbrand; discriminate. }
  rewrite (card_number_messages v n E Hn), Hsum. cbn [negb].
  destruct Hbrand as [-> | ->]; reflexivity.
Qed.

Lemma card_number_accepted_witness :
  let v := set CardNumber (Some "4111111111111111") defaultState in
  CardUtilsModel.validateCardNumber "4111111111111111" = true /\
  CardUtilsModel.parseCardType (Some "4111111111111111")
    = CardUtilsModel.Visa /\
  @validate scenario_utils model_email v CardNumber = [].
Proof.
  split; [reflexivity|]. split; [reflexivity|].
  apply (card_number_accepted scenario_utils model_email _
           "4111111111111111");
    [reflexivity | reflexivity | left; reflexivity].
Defined.

(** C5. A non-empty card number that the checksum of
    [validateCardNumber] rejects has ['Must be a valid card'] among the
    messages of [card_number]. *)
Theorem card_number_checksum_rejected :
  forall (utils : CreditCardUtils) (mail : EmailGrammar)
         (v : FormValues) (n : string),
    card_number v = Some n -> n <> "" ->
    validateCardNumber n = false ->
    In "Must be a valid card" (validate v CardNumber).
Proof.
  intros utils mail v n E Hn Hsum.
  rewrite (card_number_messages v n E Hn), Hsum. left. reflexivity.
Qed.

Lemma card_number_checksum_rejected_witness :
  let v := set CardNumber (Some "4111111111111112") defaultState in
  CardUtilsModel.validateCardNumber "4111111111111112" = false /\
  In "Must be a valid card" (@validate scenario_utils model_email v CardNumber).
Proof.
  split; [reflexivity|].
  apply (card_number_checksum_rejected scenario_utils model_email _
           "4111111111111112");
    [reflexivity | discriminate | reflexivity].
Defined.

(** C6. A non-empty card number that passes the checksum of
    [validateCardNumber] but that [parseCardType] reports as neither
    ["visa"] nor ["mastercard"] has ['Must be Visa / Master card type']
    among the messages of [card_number]. *)
Theorem card_number_brand_rejected :
  forall (utils : CreditCardUtils) (mail : EmailGrammar)
         (v : FormValues) (n : string),
    card_number v = Some n -> n <> "" ->
    validateCardNumber n = true ->
    parseCardType (Some n) <> Some "visa" ->
    parseCardType (Some n) <> Some "mastercard" ->
    In "Must be Visa / Master card type" (validate v CardNumber).
Proof.
  intros utils mail v n E Hn Hsum Hv Hm.
  rewrite (card_number_messages v n E Hn), Hsum. cbn [negb].
  destruct (Js.strict_eq (parseCardType (Some n)) "visa") eqn:V.
  { apply strict_eq_true in V. contradiction. }
  destruct (Js.strict_eq (parseCardType (Some n)) "mastercard") eqn:M.
  { apply strict_eq_true in M. contradiction. }
  left. reflexivity.
Qed.

Lemma card_number_brand_rejected_witness :
  let v := set CardNumber (Some "378282246310005") defaultState in
  CardUtilsModel.validateCardNumber "378282246310005" = true /\
  CardUtilsModel.parseCardType (Some "378282246310005")
    = CardUtilsModel.Unknown /\
  In "Must be Visa / Master card type"
     (@validate scenario_utils model_email v CardNumber).
Proof.
  split; [reflexivity|]. split; [reflexivity|].
  apply (card_number_brand_rejected scenario_utils model_email _
           "378282246310005");
    [reflexivity | discriminate | reflexivity | discriminate | discriminate].
Defined.

(* ================================================================== *)
(** ** The security code field *)
(* ================================================================== *)

(** C10. The security code is checked as a string: any value of three
    code units that [validateCardCVC] accepts leaves the message list of
    [cvv] empty, a leading zero as in ["012"] included; nothing in the
    rules reads the value as a number. *)
Theorem cvv_validated_as_string :
  forall (utils : CreditCardUtils) (mail : EmailGrammar)
         (v : FormValues) (s : string),
    cvv v = Some s ->
    String.length s = 3 ->
    validateCardCVC s = true ->
    validate v Cvv = [].
Proof.
  intros utils mail v s E Hlen Hcvc.
  assert (Hs : s <> "") by (intros ->; discriminate).
  rewrite (cvv_messages v s E Hs), Hlen, Hcvc. reflexivity.
Qed.

Lemma cvv_validated_as_string_witness :
  let v := set Cvv (Some "012") defaultState in
  String.length "012" = 3 /\
  CardUtilsModel.validateCardCVC "012" = true /\
  @validate scenario_utils model_email v Cvv = [].
Proof.
  split; [reflexivity|]. split; [reflexivity|].
  apply (cvv_validated_as_string scenario_utils model_email _ "012");
    reflexivity.
Defined.

(* ================================================================== *)
(** ** The submit gate *)
(* ================================================================== *)




(** C4, as the code has it.  In every state the component reaches, a
    non-empty security code whose length is not 3 has
    ['Maximum 3 digits'] among the messages of [cvv] and raises the
    aggregate flag, so the submit button is disabled and a press on it
    calls nothing. *)
Theorem cvv_wrong_length_blocks :
  forall (utils : CreditCardUtils) (mail : EmailGrammar)
         (p : Props) (c : Component) (s : string),
    reachable p c ->
    cvv (data (state c)) = Some s ->
    s <> "" ->
    String.length s <> 3 ->
    In "Maximum 3 digits" (errors (state c) Cvv) /\
    auto_invalid (state c) = true /\
    submit_disabled p c = true /\
    step p c Press = (c, []).
Proof.
  intros utils mail p c s R E Hs Hlen.
  destruct (reachable_sync p c R) as [D S].
  assert (M : errors (state c) Cvv = ["Maximum 3 digits"]).
  { rewrite (errors_entered (state c) Cvv s E).
    rewrite S, <- D, (cvv_messages _ s E Hs).
    apply Nat.eqb_neq in Hlen. rewrite Hlen. reflexivity. }
  assert (I : auto_invalid (state c) = true).
  { apply auto_invalid_true. exists Cvv.
    rewrite <- (errors_entered (state c) Cvv s E), M. discriminate. }
  assert (G : submit_disabled p c = true).
  { unfold submit_disabled. rewrite I. reflexivity. }
  repeat split; auto.
  - rewrite M. left. reflexivity.
  - unfold step. rewrite G. reflexivity.
Qed.

Lemma cvv_wrong_length_blocks_witness :
  let c := @after scenario_utils model_email defaultProps [Change Cvv "12"] in
  cvv (data (state c)) = Some "12" /\
  In "Maximum 3 digits" (errors (state c) Cvv) /\
  auto_invalid (state c) = true /\
  submit_disabled defaultProps c = true /\
  @step scenario_utils model_email defaultProps c Press = (c, []).
Proof.
  split; [reflexivity|].
  apply (cvv_wrong_length_blocks scenario_utils model_email defaultProps _ "12");
    [apply reachable_after | reflexivity | discriminate | discriminate].
Defined.

(** C4, as stated, fails on the empty string: its length is not 3, yet
    the only message of [cvv] is ['Required']. *)
Lemma cvv_empty_is_required :
  let c := @after scenario_utils model_email defaultProps [Change Cvv ""] in
  cvv (data (state c)) = Some "" /\
  String.length "" <> 3 /\
  errors (state c) Cvv = ["Required"] /\
  ~ In "Maximum 3 digits" (errors (state c) Cvv).
Proof.
  cbv zeta. split; [reflexivity|]. split; [discriminate|].
  split; [reflexivity|].
  intros [H|[]]. discriminate H.
Qed.

(* ================================================================== *)
(** ** Submission *)
(* ================================================================== *)




(* ================================================================== *)
(** ** Further facts about the schema *)
(* ================================================================== *)

Section FieldFacts.

Context {utils : CreditCardUtils} {mail : EmailGrammar}.

(** The e-mail rule on a non-empty value. *)
Lemma email_messages (v : FormValues) (s : string) :
  email v = Some s -> s <> "" ->
  validate v Email = if isEmail s then [] else ["Must be a valid email"].
Proof.
  intros E Hs. unfold validate. cbn [schema get]. rewrite E.
  destruct s as [|a r]; [congruence|].
  cbv beta iota zeta delta
    [Joi.validate Joi.rules email_schema Joi.run Joi.email].
  destruct (isEmail (String a r)); reflexivity.
Qed.

(** The expiry rule on a non-empty value. *)
Lemma card_expire_messages (v : FormValues) (s : string) :
  card_expire v = Some s -> s <> "" ->
  validate v CardExpire =
    if validateCardExpiry (month (parseCardExpiry s))
                          (year (parseCardExpiry s))
    then [] else ["Must be valid expiration date"].
Proof.
  intros E Hs. unfold validate. cbn [schema get]. rewrite E.
  destruct s as [|a r]; [congruence|].
  cbv beta iota zeta delta
    [Joi.validate Joi.rules card_expire_schema Joi.run Joi.custom
     card_expire_check Js.truthy].
  destruct (validateCardExpiry _ _); reflexivity.
Qed.

(** Null and the empty string, in any field. *)
Lemma missing_messages (v : FormValues) (f : Field) :
  get f v = None \/ get f v = Some "" -> validate v f = ["Required"].
Proof.
  unfold validate. intros [-> | ->]; destruct f; reflexivity.
Qed.

(** The three shapes of a field's value. *)
Lemma value_cases (x : option string) :
  x = None \/ x = Some "" \/ exists s, x = Some s /\ s <> "".
Proof.
  destruct x as [[|a r]|]; auto.
  right. right. exists (String a r). split; [reflexivity | discriminate].
Qed.

(** The messages of a field depend on the value of that field alone. *)
Lemma validate_local (v w : FormValues) (f : Field) :
  get f v = get f w -> validate v f = validate w f.
Proof. unfold validate. intros ->. reflexivity. Qed.

Lemma get_set_same (f : Field) (x : option string) (v : FormValues) :
  get f (set f x v) = x.
Proof. destruct f; reflexivity. Qed.

Lemma get_set_other (f g : Field) (x : option string) (v : FormValues) :
  f <> g -> get g (set f x v) = get g v.
Proof. destruct f, g; try reflexivity; congruence. Qed.

Lemma field_eqb_eq (f g : Field) : field_eqb f g = true <-> f = g.
Proof. destruct f, g; simpl; split; congruence. Qed.

(** What a change does to the model store. *)
Lemma onChange_other (f g : Field) (x : string) (m : FormValues) :
  f <> g -> get g (onChange f x m) = get g m.
Proof.
  intros N. destruct f; unfold onChange, updateModel;
    apply get_set_other, N.
Qed.

Lemma onChange_some (f : Field) (x : string) (m : FormValues) :
  get f (onChange f x m) <> None.
Proof.
  destruct f; unfold onChange, updateModel; rewrite get_set_same;
    discriminate.
Qed.

End FieldFacts.

(** The e-mail field is free of messages exactly when it holds a
    non-empty string that the address grammar accepts. *)
Lemma email_clean :
  forall (utils : CreditCardUtils) (mail : EmailGrammar) (v : FormValues),
    validate v Email = [] <->
    exists s, email v = Some s /\ s <> "" /\ isEmail s = true.
Proof.
  intros utils mail v.
  destruct (value_cases (email v)) as [E|[E|(s & E & Hs)]].
  - rewrite (missing_messages v Email (or_introl E)).
    split; [discriminate|]. intros (s & E' & _). simpl in E. congruence.
  - rewrite (missing_messages v Email (or_intror E)).
    split; [discriminate|]. intros (s & E' & N & _). simpl in E. congruence.
  - rewrite (email_messages v s E Hs). split.
    + intros H. exists s. repeat split; auto.
      destruct (isEmail s); [reflexivity | discriminate].
    + intros (s' & E' & _ & H). assert (s' = s) by congruence. subst s'.
      rewrite H. reflexivity.
Qed.

(** The card number field is free of messages exactly when it holds
    a non-empty string that [validateCardNumber] accepts and that
    [parseCardType] reports as ["visa"] or ["mastercard"]. *)
Lemma card_number_clean :
  forall (utils : CreditCardUtils) (mail : EmailGrammar) (v : FormValues),
    validate v CardNumber = [] <->
    exists n, card_number v = Some n /\ n <> "" /\
              validateCardNumber n = true /\
              (parseCardType (Some n) = Some "visa" \/
               parseCardType (Some n) = Some "mastercard").
Proof.
  intros utils mail v.
  destruct (value_cases (card_number v)) as [E|[E|(n & E & Hn)]].
  - rewrite (missing_messages v CardNumber (or_introl E)).
    split; [discriminate|]. intros (s & E' & _). simpl in E. congruence.
  - rewrite (missing_messages v CardNumber (or_intror E)).
    split; [discriminate|]. intros (s & E' & N & _). simpl in E. congruence.
  - rewrite (card_number_messages v n E Hn). split.
    + intros H. exists n. split; [exact E|]. split; [exact Hn|].
      destruct (validateCardNumber n); [|discriminate]. split; [reflexivity|].
      cbn [negb] in H.
      destruct (Js.strict_eq (parseCardType (Some n)) "visa") eqn:V.
      { left. apply strict_eq_true, V. }
      destruct (Js.strict_eq (parseCardType (Some n)) "mastercard") eqn:M.
      { right. apply strict_eq_true, M. }
      discriminate H.
    + intros (n' & E' & _ & S & B). assert (n' = n) by congruence. subst n'.
      rewrite S. cbn [negb]. destruct B as [-> | ->]; reflexivity.
Qed.

(** The expiry field is free of messages exactly when it holds a
    non-empty string whose parsed month and year [validateCardExpiry]
    accepts. *)
Lemma card_expire_clean :
  forall (utils : CreditCardUtils) (mail : EmailGrammar) (v : FormValues),
    validate v CardExpire = [] <->
    exists s, card_expire v = Some s /\ s <> "" /\
              validateCardExpiry (month (parseCardExpiry s))
                                 (year (parseCardExpiry s)) = true.
Proof.
  intros utils mail v.
  destruct (value_cases (card_expire v)) as [E|[E|(s & E & Hs)]].
  - rewrite (missing_messages v CardExpire (or_introl E)).
    split; [discriminate|]. intros (s & E' & _). simpl in E. congruence.
  - rewrite (missing_messages v CardExpire (or_intror E)).
    split; [discriminate|]. intros (s & E' & N & _). simpl in E. congruence.
  - rewrite (card_expire_messages v s E Hs). split.
    + intros H. exists s. repeat split; auto.
      destruct (validateCardExpiry _ _); [reflexivity | discriminate].
    + intros (s' & E' & _ & H). assert (s' = s) by congruence. subst s'.
      rewrite H. reflexivity.
Qed.

(** The security code field is free of messages exactly when it
    holds a string of three code units that [validateCardCVC] accepts. *)
Lemma cvv_clean :
  forall (utils : CreditCardUtils) (mail : EmailGrammar) (v : FormValues),
    validate v Cvv = [] <->
    exists s, cvv v = Some s /\ String.length s = 3 /\
              validateCardCVC s = true.
Proof.
  intros utils mail v.
  destruct (value_cases (cvv v)) as [E|[E|(s & E & Hs)]].
  - rewrite (missing_messages v Cvv (or_introl E)).
    split; [discriminate|]. intros (s & E' & _). simpl in E. congruence.
  - rewrite (missing_messages v Cvv (or_intror E)).
    split; [discriminate|]. intros (s & E' & L & _). simpl in E.
    assert (s = "") by congruence. subst s. discriminate L.
  - rewrite (cvv_messages v s E Hs). split.
    + intros H. exists s. split; [exact E|].
      destruct (String.length s =? 3) eqn:L; [|discriminate].
      apply Nat.eqb_eq in L. split; [exact L|].
      destruct (validateCardCVC s); [reflexivity | discriminate].
    + intros (s' & E' & L & H). assert (s' = s) by congruence. subst s'.
      rewrite L, H. reflexivity.
Qed.

Section TraceFacts.

Context {utils : CreditCardUtils} {mail : EmailGrammar}.

(** A field shows nothing or one text of its table. *)
Lemma messages_shape (v : FormValues) (f : Field) :
  validate v f = [] \/
  exists m, validate v f = [m] /\ In m (texts f) /\ m <> "".
Proof.
  destruct (value_cases (get f v)) as [E|[E|(s & E & Hs)]].
  - right. exists "Required".
    rewrite (missing_messages v f (or_introl E)).
    split; [reflexivity|]. split; [destruct f; simpl; tauto | discriminate].
  - right. exists "Required".
    rewrite (missing_messages v f (or_intror E)).
    split; [reflexivity|]. split; [destruct f; simpl; tauto | discriminate].
  - destruct f; simpl in E.
    + rewrite (email_messages v s E Hs).
      destruct (isEmail s); [left; reflexivity|].
      right. eexists. split; [reflexivity|].
      split; [simpl; tauto | discriminate].
    + rewrite (card_number_messages v s E Hs).
      destruct (negb (validateCardNumber s)).
      { right. eexists. split; [reflexivity|].
        split; [simpl; tauto | discriminate]. }
      destruct (Js.strict_eq _ "visa" || Js.strict_eq _ "mastercard");
        [left; reflexivity|].
      right. eexists. split; [reflexivity|].
      split; [simpl; tauto | discriminate].
    + rewrite (card_expire_messages v s E Hs).
      destruct (validateCardExpiry _ _); [left; reflexivity|].
      right. eexists. split; [reflexivity|].
      split; [simpl; tauto | discriminate].
    + rewrite (cvv_messages v s E Hs).
      destruct (String.length s =? 3).
      * destruct (negb (validateCardCVC s)); [|left; reflexivity].
        right. eexists. split; [reflexivity|].
        split; [simpl; tauto | discriminate].
      * right. eexists. split; [reflexivity|].
        split; [simpl; tauto | discriminate].
Qed.

(** ['Required'] belongs to null and to the empty string only. *)
Lemma required_only_missing (v : FormValues) (f : Field) :
  validate v f = ["Required"] <-> get f v = None \/ get f v = Some "".
Proof.
  split; [|apply missing_messages].
  destruct (value_cases (get f v)) as [E|[E|(s & E & Hs)]]; auto.
  intros H. exfalso. destruct f; simpl in E.
  - rewrite (email_messages v s E Hs) in H.
    destruct (isEmail s); discriminate.
  - rewrite (card_number_messages v s E Hs) in H.
    destruct (negb (validateCardNumber s)); [discriminate|].
    destruct (Js.strict_eq _ "visa" || Js.strict_eq _ "mastercard");
      discriminate.
  - rewrite (card_expire_messages v s E Hs) in H.
    destruct (validateCardExpiry _ _); discriminate.
  - rewrite (cvv_messages v s E Hs) in H.
    destruct (String.length s =? 3); [|discriminate].
    destruct (negb (validateCardCVC s)); discriminate.
Qed.


(** One value cannot equal both brand names. *)
Lemma one_brand (x : option string) :
  Js.strict_eq x "visa" && Js.strict_eq x "mastercard" = false.
Proof.
  destruct (Js.strict_eq x "visa") eqn:V; [|reflexivity].
  apply strict_eq_true in V. subst x. reflexivity.
Qed.

Lemma calls_app (a b : list Effect) : calls (a ++ b) = calls a ++ calls b.
Proof. unfold calls. apply flat_map_app. Qed.

Lemma run_events_fst (p : Props) (es : list Event) :
  forall c, fst (run_events p c es)
            = fold_left (fun c e => fst (step p c e)) es c.
Proof.
  induction es as [|e es IH]; intros c; [reflexivity|].
  cbn [run_events fold_left].
  destruct (step p c e) as [c1 out1] eqn:S1.
  specialize (IH c1). destruct (run_events p c1 es) as [c2 out2].
  cbn [fst] in *. exact IH.
Qed.

Lemma run_events_after (p : Props) (es : list Event) :
  fst (run_events p init es) = after p es.
Proof. apply run_events_fst. Qed.

(** A press on a disabled button is silent. *)
Lemma press_disabled (p : Props) (c : Component) :
  submit_disabled p c = true -> step p c Press = (c, []).
Proof. intros G. unfold step. rewrite G. reflexivity. Qed.

(** A reachable state whose button is enabled holds valid values. *)
Lemma enabled_valid (p : Props) (c : Component) :
  reachable p c -> submit_disabled p c = false ->
  data (state c) = models c /\
  non_null (models c) /\ forall f, validate (models c) f = [].
Proof.
  intros R G. destruct (reachable_sync p c R) as [D S].
  unfold submit_disabled in G. apply orb_false_iff in G as [G _].
  assert (V : forall f, validate (models c) f = []).
  { intros f. rewrite <- S. revert f. apply auto_invalid_false, G. }
  repeat split; auto.
  intros f N. exact (required_null f (models c) N (V f)).
Qed.

(** A reachable state with a null field has a disabled button. *)
Lemma null_disabled (p : Props) (c : Component) (f : Field) :
  reachable p c -> get f (models c) = None -> submit_disabled p c = true.
Proof.
  intros R N. destruct (submit_disabled p c) eqn:G; [reflexivity|].
  destruct (enabled_valid p c R G) as (_ & NN & _).
  elim (NN f N).
Qed.

(** What the button lets through, along a run. *)
Lemma button_run_valid (p : Props) (es : list Event) :
  through_button es = true ->
  forall c, reachable p c ->
  forall w, In w (calls (snd (run_events p c es))) ->
    loading p = false /\ non_null w /\ forall f, validate w f = [].
Proof.
  induction es as [|e es IH]; intros T c R w Hw; [destruct Hw|].
  cbn [through_button forallb] in T. apply andb_prop in T as [Te T].
  cbn [run_events] in Hw.
  pose proof (reachable_step p c e R) as R1.
  destruct (step p c e) as [c1 out1] eqn:S1.
  pose proof (IH T c1 R1 w) as IH1.
  destruct (run_events p c1 es) as [c2 out2].
  cbn [snd fst] in *. rewrite calls_app in Hw.
  apply in_app_or in Hw as [Hw|Hw]; [|auto].
  destruct e as [f x| |]; [| |discriminate Te].
  - injection S1 as _ <-. destruct Hw.
  - unfold step in S1. destruct (submit_disabled p c) eqn:G.
    + injection S1 as _ <-. destruct Hw.
    + injection S1 as _ <-. unfold onSubmit in Hw.
      destruct Hw as [<-|[]].
      destruct (enabled_valid p c R G) as (D & NN & V). rewrite D.
      unfold submit_disabled in G. apply orb_false_iff in G as [_ L].
      auto.
Qed.

(** A field no event changes keeps its value. *)
Lemma untouched_get (p : Props) (f : Field) (es : list Event) :
  touched f es = false ->
  forall c, get f (models (fold_left (fun c e => fst (step p c e)) es c))
            = get f (models c).
Proof.
  induction es as [|e es IH]; intros T c; [reflexivity|].
  cbn [touched existsb] in T. apply orb_false_iff in T as [Te T].
  cbn [fold_left]. rewrite (IH T).
  destruct e as [g x| |]; cbn [step fst].
  - cbn [models]. apply onChange_other. intros ->.
    destruct f; discriminate Te.
  - destruct (submit_disabled p c); reflexivity.
  - reflexivity.
Qed.

(** Each input stores what its formatter returns. *)
Lemma reachable_formatted (p : Props) (c : Component) :
  reachable p c ->
  (card_number (models c) = None \/
   exists raw, card_number (models c) = Some (formatCardNumber raw)) /\
  (card_expire (models c) = None \/
   exists raw, card_expire (models c) = Some (formatCardExpiry raw)).
Proof.
  induction 1 as [|c e R IH].
  - split; left; reflexivity.
  - destruct e as [f x| |]; cbn [step fst].
    + cbn [models]. destruct f; cbn; try exact IH.
      * split; [right; exists x; reflexivity | apply IH].
      * split; [apply IH | right; exists x; reflexivity].
    + destruct (submit_disabled p c); exact IH.
    + exact IH.
Qed.

End TraceFacts.

Section RunFacts.

Context {utils : CreditCardUtils} {mail : EmailGrammar}.

(** What is handed over along a run holds, in a field no event changes,
    the value the run started with. *)
Lemma run_calls_untouched (p : Props) (f : Field) (es : list Event) :
  touched f es = false ->
  forall c, reachable p c ->
  forall w, In w (calls (snd (run_events p c es))) ->
    get f w = get f (models c).
Proof.
  induction es as [|e es IH]; intros T c R w Hw; [destruct Hw|].
  cbn [touched existsb] in T. apply orb_false_iff in T as [Te T].
  cbn [run_events] in Hw.
  pose proof (reachable_step p c e R) as R1.
  destruct (reachable_sync p c R) as [D _].
  destruct (step p c e) as [c1 out1] eqn:S1.
  pose proof (IH T c1 R1 w) as IH1.
  destruct (run_events p c1 es) as [c2 out2].
  cbn [snd fst] in *. rewrite calls_app in Hw.
  apply in_app_or in Hw as [Hw|Hw].
  - destruct e as [g x| |]; unfold step in S1.
    + injection S1 as _ <-. destruct Hw.
    + destruct (submit_disabled p c); injection S1 as _ <-;
        [destruct Hw|].
      destruct Hw as [<-|[]]. rewrite D. reflexivity.
    + injection S1 as _ <-. destruct Hw as [<-|[]]. rewrite D. reflexivity.
  - rewrite (IH1 Hw). destruct e as [g x| |]; unfold step in S1.
    + injection S1 as <- _. cbn [models]. apply onChange_other.
      intros ->. destruct f; discriminate Te.
    + destruct (submit_disabled p c); injection S1 as <- _; reflexivity.
    + injection S1 as <- _. reflexivity.
Qed.

End RunFacts.

(* ================================================================== *)
(** ** When a field is free of messages *)
(* ================================================================== *)

(** X1. The e-mail field is free of messages exactly when it holds a
    non-empty string that the address grammar accepts. *)
Theorem email_valid_iff :
  forall (utils : CreditCardUtils) (mail : EmailGrammar) (v : FormValues),
    validate v Email = [] <->
    exists s, email v = Some s /\ s <> "" /\ isEmail s = true.
Proof. intros utils mail v. apply email_clean. Qed.

(** X2. The card number field is free of messages exactly when it holds
    a non-empty string that [validateCardNumber] accepts and that
    [parseCardType] reports as ["visa"] or ["mastercard"]. *)
Theorem card_number_valid_iff :
  forall (utils : CreditCardUtils) (mail : EmailGrammar) (v : FormValues),
    validate v CardNumber = [] <->
    exists n, card_number v = Some n /\ n <> "" /\
              validateCardNumber n = true /\
              (parseCardType (Some n) = Some "visa" \/
               parseCardType (Some n) = Some "mastercard").
Proof. intros utils mail v. apply card_number_clean. Qed.

(** X3. The expiry field is free of messages exactly when it holds a
    non-empty string whose parsed month and year [validateCardExpiry]
    accepts. *)
Theorem card_expire_valid_iff :
  forall (utils : CreditCardUtils) (mail : EmailGrammar) (v : FormValues),
    validate v CardExpire = [] <->
    exists s, card_expire v = Some s /\ s <> "" /\
              validateCardExpiry (month (parseCardExpiry s))
                                 (year (parseCardExpiry s)) = true.
Proof. intros utils mail v. apply card_expire_clean. Qed.

(** X4. The security code field is free of messages exactly when it
    holds a string of three code units that [validateCardCVC] accepts. *)
Theorem cvv_valid_iff :
  forall (utils : CreditCardUtils) (mail : EmailGrammar) (v : FormValues),
    validate v Cvv = [] <->
    exists s, cvv v = Some s /\ String.length s = 3 /\
              validateCardCVC s = true.
Proof. intros utils mail v. apply cvv_clean. Qed.

(* ================================================================== *)
(** ** Which message a field shows *)
(* ================================================================== *)

(** X5. For a value that has been entered, a field shows ['Required']
    exactly when the value is the empty string; this holds for each of
    the four fields. *)
Theorem required_iff_empty :
  forall (utils : CreditCardUtils) (mail : EmailGrammar)
         (v : FormValues) (f : Field) (s : string),
    get f v = Some s ->
    (validate v f = ["Required"] <-> s = "").
Proof.
  intros utils mail v f s E. rewrite required_only_missing, E. split.
  - intros [H|H]; congruence.
  - intros ->. right. reflexivity.
Qed.

Lemma required_iff_empty_witness :
  @validate scenario_utils model_email
    (set CardExpire (Some "") defaultState) CardExpire = ["Required"].
Proof.
  apply (required_iff_empty scenario_utils model_email _ CardExpire "");
    reflexivity.
Defined.

(** X6. The length of the security code is checked before the code
    itself: ['Maximum 3 digits'] is the message of every non-empty value
    whose length is not 3, whatever [validateCardCVC] says of it, and
    ['Must be valid CVV'] the message of the values of length 3 that
    [validateCardCVC] rejects. *)
Theorem cvv_length_before_check :
  forall (utils : CreditCardUtils) (mail : EmailGrammar) (v : FormValues),
    (validate v Cvv = ["Maximum 3 digits"] <->
     exists s, cvv v = Some s /\ s <> "" /\ String.length s <> 3) /\
    (validate v Cvv = ["Must be valid CVV"] <->
     exists s, cvv v = Some s /\ String.length s = 3 /\
               validateCardCVC s = false).
Proof.
  intros utils mail v.
  destruct (value_cases (cvv v)) as [E|[E|(s & E & Hs)]].
  - rewrite (missing_messages v Cvv (or_introl E)). simpl in E.
    split; (split; [discriminate|]); intros (s & E' & _); congruence.
  - rewrite (missing_messages v Cvv (or_intror E)). simpl in E.
    split; (split; [discriminate|]).
    + intros (s & E' & N & _). congruence.
    + intros (s & E' & L & _). assert (s = "") by congruence. subst s.
      discriminate L.
  - rewrite (cvv_messages v s E Hs).
    destruct (String.length s =? 3) eqn:L.
    + apply Nat.eqb_eq in L.
      destruct (validateCardCVC s) eqn:C; cbn [negb];
        split; (split; [try discriminate|]).
      * intros (s' & E' & _ & N). assert (s' = s) by congruence.
        subst s'. contradiction.
      * intros (s' & E' & _ & N). assert (s' = s) by congruence.
        subst s'. congruence.
      * intros (s' & E' & _ & N). assert (s' = s) by congruence.
        subst s'. contradiction.
      * intros _. exists s. auto.
      * intros _. reflexivity.
    + apply Nat.eqb_neq in L. split; split.
      * intros _. exists s. auto.
      * intros _. reflexivity.
      * discriminate.
      * intros (s' & E' & L' & _). assert (s' = s) by congruence.
        subst s'. contradiction.
Qed.

(** X7. The checksum of the card number is checked before the brand:
    ['Must be a valid card'] is the message of every non-empty value
    that [validateCardNumber] rejects, whatever its brand, and
    ['Must be Visa / Master card type'] the message of the values that
    [validateCardNumber] accepts and [parseCardType] reports as neither
    ["visa"] nor ["mastercard"]. *)
Theorem card_number_checksum_before_brand :
  forall (utils : CreditCardUtils) (mail : EmailGrammar) (v : FormValues),
    (validate v CardNumber = ["Must be a valid card"] <->
     exists n, card_number v = Some n /\ n <> "" /\
               validateCardNumber n = false) /\
    (validate v CardNumber = ["Must be Visa / Master card type"] <->
     exists n, card_number v = Some n /\ n <> "" /\
               validateCardNumber n = true /\
               parseCardType (Some n) <> Some "visa" /\
               parseCardType (Some n) <> Some "mastercard").
Proof.
  intros utils mail v.
  destruct (value_cases (card_number v)) as [E|[E|(n & E & Hn)]].
  - rewrite (missing_messages v CardNumber (or_introl E)). simpl in E.
    split; (split; [discriminate|]); intros (s & E' & _); congruence.
  - rewrite (missing_messages v CardNumber (or_intror E)). simpl in E.
    split; (split; [discriminate|]); intros (s & E' & N & _); congruence.
  - rewrite (card_number_messages v n E Hn).
    destruct (validateCardNumber n) eqn:S; cbn [negb].
    + destruct (Js.strict_eq (parseCardType (Some n)) "visa") eqn:V;
        [|destruct (Js.strict_eq (parseCardType (Some n)) "mastercard") eqn:M];
        cbn [orb]; split; (split; [try discriminate|]).
      * intros (n' & E' & _ & S'). assert (n' = n) by congruence.
        subst n'. congruence.
      * intros (n' & E' & _ & _ & NV & _). assert (n' = n) by congruence.
        subst n'. apply strict_eq_true in V. contradiction.
      * intros (n' & E' & _ & S'). assert (n' = n) by congruence.
        subst n'. congruence.
      * intros (n' & E' & _ & _ & _ & NM). assert (n' = n) by congruence.
        subst n'. apply strict_eq_true in M. contradiction.
      * intros (n' & E' & _ & S'). assert (n' = n) by congruence.
        subst n'. congruence.
      * intros _. exists n. repeat split; auto.
        -- intros B. apply strict_eq_true in B. congruence.
        -- intros B. apply strict_eq_true in B. congruence.
      * intros _. reflexivity.
    + split; split.
      * intros _. exists n. auto.
      * intros _. reflexivity.
      * discriminate.
      * intros (n' & E' & _ & S' & _). assert (n' = n) by congruence.
        subst n'. congruence.
Qed.

(** X8. For a value that has been entered, a field never shows more
    than one message, and the one it shows is a non-empty text of the
    table written for that field: every code its rules raise has an
    entry in the table. *)
Theorem one_message_of_the_table :
  forall (utils : CreditCardUtils) (mail : EmailGrammar)
         (v : FormValues) (f : Field) (s : string),
    get f v = Some s ->
    validate v f = [] \/
    exists m, validate v f = [m] /\ In m (texts f) /\ m <> "".
Proof. intros utils mail v f s _. apply messages_shape. Qed.

Lemma one_message_of_the_table_witness :
  let v := set CardNumber (Some "1234") defaultState in
  exists m, @validate scenario_utils model_email v CardNumber = [m] /\
            In m (@texts scenario_utils model_email CardNumber).
Proof.
  cbv zeta.
  destruct (one_message_of_the_table scenario_utils model_email
              (set CardNumber (Some "1234") defaultState) CardNumber "1234"
              eq_refl) as [E|(m & E & I & _)].
  - discriminate E.
  - exists m. split; assumption.
Defined.



(* ================================================================== *)
(** ** The brand icons *)
(* ================================================================== *)

(** X10. The two brand icons are never lit together, whatever
    [parseCardType] answers. *)
Theorem icons_exclusive :
  forall (utils : CreditCardUtils) (c : Component),
    visa_active c && mastercard_active c = false.
Proof. intros utils c. apply one_brand. Qed.

(** X11. In every state the component reaches, once the card number
    input has been changed, a card number field without message has
    exactly one of the two brand icons lit: the rule of the schema and
    the icons read the same [parseCardType]. *)
Theorem valid_number_lights_one_icon :
  forall (utils : CreditCardUtils) (mail : EmailGrammar)
         (p : Props) (c : Component),
    reachable p c ->
    card_number (models c) <> None ->
    errors (state c) CardNumber = [] ->
    xorb (visa_active c) (mastercard_active c) = true.
Proof.
  intros utils mail p c R T H.
  destruct (reachable_sync p c R) as [D S].
  destruct (card_number (models c)) as [s|] eqn:Es; [|congruence].
  rewrite (errors_entered (state c) CardNumber s) in H
    by (rewrite D; exact Es).
  rewrite S in H.
  apply card_number_clean in H as (n & E & _ & _ & B).
  unfold visa_active, mastercard_active. rewrite E.
  destruct B as [-> | ->]; reflexivity.
Qed.

Lemma valid_number_lights_one_icon_witness :
  let c := @after scenario_utils model_email defaultProps
             [Change CardNumber "5500000000000004"] in
  card_number (models c) = Some "5500 0000 0000 0004" /\
  errors (state c) CardNumber = [] /\
  xorb (@visa_active scenario_utils c)
       (@mastercard_active scenario_utils c) = true.
Proof.
  split; [reflexivity|]. split; [reflexivity|].
  apply (valid_number_lights_one_icon scenario_utils model_email
           defaultProps);
    [apply reachable_after | discriminate | reflexivity].
Defined.

(* ================================================================== *)
(** ** Runs of events *)
(* ================================================================== *)

(** X12. As long as the input of some field has not been changed, the
    submit button is disabled, and events that come from the inputs and
    the button alone never call [onSuccess]. *)
Theorem untouched_field_blocks_submit :
  forall (utils : CreditCardUtils) (mail : EmailGrammar)
         (p : Props) (f : Field) (es : list Event),
    touched f es = false ->
    through_button es = true ->
    submit_disabled p (after p es) = true /\
    calls (snd (run_events p init es)) = [].
Proof.
  intros utils mail p f es T B.
  assert (N : get f (models init) = None) by (destruct f; reflexivity).
  split.
  - apply (null_disabled p _ f (reachable_after p es)).
    unfold after. rewrite (untouched_get p f es T). exact N.
  - destruct (calls (snd (run_events p init es))) as [|w l] eqn:C;
      [reflexivity|].
    assert (Hw : In w (calls (snd (run_events p init es))))
      by (rewrite C; left; reflexivity).
    destruct (button_run_valid p es B init (reachable_init p) w Hw)
      as (_ & NN & _).
    pose proof (run_calls_untouched p f es T init (reachable_init p) w Hw)
      as G.
    rewrite N in G. elim (NN f G).
Qed.

Lemma untouched_field_blocks_submit_witness :
  let es := [Change Email "a@b.com"; Change CardNumber "4111111111111111";
             Change CardExpire "12/29"; Press] in
  touched Cvv es = false /\
  submit_disabled defaultProps
    (@after scenario_utils model_email defaultProps es) = true /\
  calls (snd (@run_events scenario_utils model_email defaultProps
                (@init scenario_utils model_email) es)) = [].
Proof.
  split; [reflexivity|].
  apply (untouched_field_blocks_submit scenario_utils model_email
           defaultProps Cvv); reflexivity.
Defined.

(** X13. While [loading] is true, events that come from the inputs and
    the button alone never call [onSuccess], whatever the form holds. *)
Theorem loading_blocks_submit :
  forall (utils : CreditCardUtils) (mail : EmailGrammar)
         (p : Props) (es : list Event),
    loading p = true ->
    through_button es = true ->
    calls (snd (run_events p init es)) = [].
Proof.
  intros utils mail p es L B.
  destruct (calls (snd (run_events p init es))) as [|w l] eqn:C;
    [reflexivity|].
  assert (Hw : In w (calls (snd (run_events p init es))))
    by (rewrite C; left; reflexivity).
  destruct (button_run_valid p es B init (reachable_init p) w Hw)
    as (L' & _). congruence.
Qed.

Lemma loading_blocks_submit_witness :
  let p := {| loading := true; submitText := "Submit" |} in
  calls (snd (@run_events scenario_utils model_email p
                (@init scenario_utils model_email)
                (scenario_input ++ [Press]))) = [].
Proof.
  apply (loading_blocks_submit scenario_utils model_email); reflexivity.
Defined.

(** X14. When the events come from the inputs and the button alone,
    every value [onSuccess] receives has four non-null fields without
    message, and [loading] is false. *)
Theorem button_hands_over_valid_data :
  forall (utils : CreditCardUtils) (mail : EmailGrammar)
         (p : Props) (es : list Event) (w : FormValues),
    through_button es = true ->
    In w (calls (snd (run_events p init es))) ->
    loading p = false /\ non_null w /\ forall f, validate w f = [].
Proof.
  intros utils mail p es w B Hw.
  exact (button_run_valid p es B init (reachable_init p) w Hw).
Qed.

Lemma button_hands_over_valid_data_witness :
  let w := {| email := Some "a@b.com";
              card_number := Some "4111 1111 1111 1111";
              card_expire := Some "12 / 29";
              cvv := Some "123" |} in
  calls (snd (@run_events scenario_utils model_email defaultProps
                (@init scenario_utils model_email)
                (scenario_input ++ [Press]))) = [w] /\
  non_null w /\
  forall f, @validate scenario_utils model_email w f = [].
Proof.
  cbv zeta. split; [reflexivity|].
  apply (button_hands_over_valid_data scenario_utils model_email
           defaultProps (scenario_input ++ [Press]));
    [reflexivity | left; reflexivity].
Defined.

(** X15. In every state the component reaches, a change of one input
    leaves the messages of the other three fields as they were. *)
Theorem change_keeps_other_messages :
  forall (utils : CreditCardUtils) (mail : EmailGrammar)
         (p : Props) (c : Component) (f g : Field) (x : string),
    reachable p c ->
    f <> g ->
    errors (state (fst (step p c (Change f x)))) g = errors (state c) g.
Proof.
  intros utils mail p c f g x R N.
  destruct (reachable_sync p c R) as [D S].
  unfold errors, dirty. rewrite S, D.
  cbn [step fst state setData data source_errors].
  rewrite (onChange_other f g x (models c) N).
  rewrite (validate_local _ (models c) g (onChange_other f g x _ N)).
  reflexivity.
Qed.

Lemma change_keeps_other_messages_witness :
  let c := @after scenario_utils model_email defaultProps
             [Change Cvv "12"] in
  errors (state (fst (@step scenario_utils model_email defaultProps c
                        (Change Email "a@b.com")))) Cvv
  = ["Maximum 3 digits"].
Proof.
  cbv zeta.
  rewrite (change_keeps_other_messages scenario_utils model_email
             defaultProps _ Email Cvv "a@b.com");
    [reflexivity | apply reachable_after | discriminate].
Defined.

(** X17. In every state the component reaches, the card number of the
    model store is null or a result of [formatCardNumber], and its
    expiry null or a result of [formatCardExpiry]: what was typed is
    never stored as such. *)
Theorem stored_values_are_formatted :
  forall (utils : CreditCardUtils) (mail : EmailGrammar)
         (p : Props) (c : Component),
    reachable p c ->
    (card_number (models c) = None \/
     exists raw, card_number (models c) = Some (formatCardNumber raw)) /\
    (card_expire (models c) = None \/
     exists raw, card_expire (models c) = Some (formatCardExpiry raw)).
Proof. intros utils mail p c R. apply (reachable_formatted p), R. Qed.

Lemma stored_values_are_formatted_witness :
  let c := @after scenario_utils model_email defaultProps
             [Change CardNumber "4111-1111"] in
  card_number (models c) = Some "4111 1111" /\
  ((card_number (models c) = None \/
    exists raw, card_number (models c)
                = Some (@formatCardNumber scenario_utils raw)) /\
   (card_expire (models c) = None \/
    exists raw, card_expire (models c)
                = Some (@formatCardExpiry scenario_utils raw))).
Proof.
  split; [reflexivity|].
  apply (stored_values_are_formatted scenario_utils model_email
           defaultProps), reachable_after.
Defined.

(** X18. In every state the component reaches, the submit button is
    enabled exactly when [loading] is false and the four fields hold: an
    e-mail the grammar accepts, a card number that [validateCardNumber]
    accepts with brand ["visa"] or ["mastercard"], an expiry whose month
    and year [validateCardExpiry] accepts, and a security code of three
    code units that [validateCardCVC] accepts. *)
Theorem submit_enabled_iff :
  forall (utils : CreditCardUtils) (mail : EmailGrammar)
         (p : Props) (c : Component),
    reachable p c ->
    (submit_disabled p c = false <->
     loading p = false /\
     exists e n x s,
       models c = {| email := Some e; card_number := Some n;
                     card_expire := Some x; cvv := Some s |} /\
       (e <> "" /\ isEmail e = true) /\
       (n <> "" /\ validateCardNumber n = true /\
        (parseCardType (Some n) = Some "visa" \/
         parseCardType (Some n) = Some "mastercard")) /\
       (x <> "" /\
        validateCardExpiry (month (parseCardExpiry x))
                           (year (parseCardExpiry x)) = true) /\
       (String.length s = 3 /\ validateCardCVC s = true)).
Proof.
  intros utils mail p c R. split.
  - intros G. destruct (enabled_valid p c R G) as (_ & _ & V).
    unfold submit_disabled in G. apply orb_false_iff in G as [_ L].
    split; [exact L|].
    destruct (proj1 (email_clean utils mail _) (V Email))
      as (e & Ee & He).
    destruct (proj1 (card_number_clean utils mail _) (V CardNumber))
      as (n & En & Hn).
    destruct (proj1 (card_expire_clean utils mail _) (V CardExpire))
      as (x & Ex & Hx).
    destruct (proj1 (cvv_clean utils mail _) (V Cvv)) as (s & Es & Hs).
    exists e, n, x, s. split; [|auto].
    destruct (models c); simpl in *. congruence.
  - intros (L & e & n & x & s & M & He & Hn & Hx & Hs).
    destruct (reachable_sync p c R) as [_ S].
    unfold submit_disabled. rewrite L, orb_false_r.
    apply auto_invalid_false. intros f. rewrite S, M.
    destruct f.
    + apply email_clean. exists e. split; [reflexivity | exact He].
    + apply card_number_clean. exists n. split; [reflexivity | exact Hn].
    + apply card_expire_clean. exists x. split; [reflexivity | exact Hx].
    + apply cvv_clean. exists s. split; [reflexivity | exact Hs].
Qed.

Lemma submit_enabled_iff_witness :
  let c := @after scenario_utils model_email defaultProps scenario_input in
  submit_disabled defaultProps c = false /\
  exists e n x s,
    models c = {| email := Some e; card_number := Some n;
                  card_expire := Some x; cvv := Some s |} /\
    CardUtilsModel.isEmail e = true /\
    CardUtilsModel.validateCardNumber n = true /\
    String.length s = 3.
Proof.
  cbv zeta. split; [reflexivity|].
  destruct (proj1 (submit_enabled_iff scenario_utils model_email defaultProps
                     (@after scenario_utils model_email defaultProps
                        scenario_input)
                     (reachable_after _ _)) eq_refl)
    as (_ & e & n & x & s & M & (_ & He) & (_ & Hn & _) & _ & (Hs & _)).
  exists e, n, x, s. auto.
Defined.

(* ================================================================== *)
(** ** How changes compose *)
(* ================================================================== *)

(** X19. A change of an input overwrites an earlier change of the same
    input: model store, validator data and messages are those of the
    later change alone. *)
Theorem later_change_wins :
  forall (utils : CreditCardUtils) (mail : EmailGrammar)
         (p : Props) (c : Component) (f : Field) (a b : string),
    fst (step p (fst (step p c (Change f a))) (Change f b))
    = fst (step p c (Change f b)).
Proof. intros utils mail p c f a b. destruct f; reflexivity. Qed.

(** X20. Changes of two different inputs can be made in either order:
    the component ends in the same state. *)
Theorem changes_commute :
  forall (utils : CreditCardUtils) (mail : EmailGrammar)
         (p : Props) (c : Component) (f g : Field) (a b : string),
    f <> g ->
    fst (step p (fst (step p c (Change f a))) (Change g b))
    = fst (step p (fst (step p c (Change g b))) (Change f a)).
Proof.
  intros utils mail p c f g a b N.
  destruct f, g; try reflexivity; congruence.
Qed.

Lemma changes_commute_witness :
  @after scenario_utils model_email defaultProps
    [Change Cvv "123"; Change Email "a@b.com"]
  = @after scenario_utils model_email defaultProps
      [Change Email "a@b.com"; Change Cvv "123"].
Proof.
  apply (changes_commute scenario_utils model_email defaultProps
           (@init scenario_utils model_email) Cvv Email "123" "a@b.com").
  discriminate.
Defined.
